(** * The HTTP client pool (pool.go): a shallow embedding and its properties

    The Go package keeps a cache of [*http.Client] values indexed by their
    timeout.  Object identity matters for what the pool promises, so clients
    and transports live in an explicit store and are referred to by address;
    the pool itself is the receiver that its methods transform.  The
    read/write mutex is part of the modelled state: a method that forgets to
    release it makes the next acquisition block for ever, and releasing a
    mutex that is not held is a run-time fault. *)

From stdpp Require Import gmap list.

Open Scope Z_scope.

(** ** Values of the imported packages *)

(** Addresses of heap objects; a Go pointer is an address or [nil]. *)
Abbreviation ptr := (option positive) (only parsing).

Module time.
(** [time.Duration] is an [int64] count of nanoseconds. *)
Abbreviation Duration := Z (only parsing).
Definition Nanosecond : Duration := 1.
Definition Microsecond : Duration := 1000 * Nanosecond.
Definition Millisecond : Duration := 1000 * Microsecond.
Definition Second : Duration := 1000 * Millisecond.
End time.

Module net.
(** The two fields of [net.Dialer] the pool sets; the others stay zero. *)
Record Dialer := { Timeout : time.Duration; KeepAlive : time.Duration }.
End net.

Module nethttp.
(** Values of the [Proxy] field of [http.Transport]. *)
Inductive ProxyFunc :=
| Proxy_nil
| ProxyFromEnvironment.

(** Values of the [Dial] field: [nil], or the method value [d.Dial] of a
    dialer [d]. *)
Inductive DialFunc :=
| Dial_nil
| Dialer_Dial (d : net.Dialer).

(** [http.Transport], with the fields the pool's composite literal names
    (every other field keeps its zero value). *)
Record Transport := {
  Proxy : ProxyFunc;
  TLSClientConfig : ptr;          (* *tls.Config *)
  Dial : DialFunc;
  TLSHandshakeTimeout : time.Duration
}.

(** A value of interface type [http.RoundTripper]: the nil interface, a
    [*http.Transport] (possibly a nil pointer wrapped in a non-nil
    interface), or some other implementation, opaque to the pool. *)
Inductive RoundTripper :=
| rt_nil
| rt_Transport (p : ptr)
| rt_other (impl : positive).

(** [http.Client], with the fields the pool's composite literal names. *)
Record Client := { Transport_ : RoundTripper; Timeout : time.Duration }.
End nethttp.

Module sync.
(** [sync.RWMutex] as one goroutine sees it: is the write lock held, how
    many read locks are held, and is a writer waiting for the read locks to
    go ([pending]).  A waiting writer comes first: once [Lock] has been
    called, [RLock] and further [Lock] calls wait behind it. *)
Record RWMutex := { writer : bool; readers : nat; pending : bool }.
Definition zero : RWMutex :=
  {| writer := false; readers := 0; pending := false |}.
End sync.

(** ** The pool *)

(** [map[time.Duration]*http.Client]: [None] is the nil map. *)
Abbreviation clientMap := (option (gmap Z (option positive))) (only parsing).

Record pool := {
  mtx : sync.RWMutex;
  transport : nethttp.RoundTripper;
  tlsConfig : ptr;
  clients : clientMap
}.

(** What a method did to the pool, in program order. *)
Inductive Event :=
| EvLock
| EvUnlock
| EvRLock
| EvRUnlock
| EvSetTransport (x : nethttp.RoundTripper)
| EvSetTLSConfig (c : ptr)
| EvMakeClients
| EvStoreClient (k : time.Duration) (c : ptr).

(** The store of client and transport objects, the receiver, and the trace
    of the receiver's lock and write events. *)
Record World := {
  clientObjs : gmap positive nethttp.Client;
  transportObjs : gmap positive nethttp.Transport;
  self : pool;
  events : list Event
}.

(** ** Outcomes and the method monad *)

Inductive Fault :=
| NilMapWrite          (* assignment to entry in nil map *)
| UnlockOfUnlocked     (* sync: Unlock of unlocked RWMutex *)
| RUnlockOfUnlocked.   (* sync: RUnlock of unlocked RWMutex *)

Inductive Outcome (A : Type) :=
| Ret (a : A) (w : World)
| Panic (f : Fault)
| Blocked.               (* waits for a lock nobody will release *)
Arguments Ret {A} a w.
Arguments Panic {A} f.
Arguments Blocked {A}.

Definition M (A : Type) := World -> Outcome A.

Definition ret {A} (a : A) : M A := fun w => Ret a w.

Definition bind {A B} (m : M A) (k : A -> M B) : M B :=
  fun w => match m w with
           | Ret a w' => k a w'
           | Panic f => Panic f
           | Blocked => Blocked
           end.

Declare Scope go_scope.
Delimit Scope go_scope with go.
Notation "x <- m ;; k" := (bind m (fun x => k))
  (at level 20, m at level 99, k at level 200, only parsing) : go_scope.

(** ** Primitive steps on the receiver *)

Definition with_pool (w : World) (p : pool) (e : list Event) : World :=
  {| clientObjs := clientObjs w; transportObjs := transportObjs w;
     self := p; events := events w ++ e |}.

Definition set_mtx (p : pool) (m : sync.RWMutex) : pool :=
  {| mtx := m; transport := transport p; tlsConfig := tlsConfig p;
     clients := clients p |}.

(** [Lock] waits while the write lock or a read lock is held, and behind a
    writer that waits already. *)
Definition Lock : M unit := fun w =>
  let m := mtx (self w) in
  if sync.writer m || negb (Nat.eqb (sync.readers m) 0) || sync.pending m
  then Blocked
  else Ret tt (with_pool w
                 (set_mtx (self w)
                    {| sync.writer := true; sync.readers := 0;
                       sync.pending := false |})
                 [EvLock]).

Definition Unlock : M unit := fun w =>
  let m := mtx (self w) in
  if sync.writer m
  then Ret tt (with_pool w
                 (set_mtx (self w)
                    {| sync.writer := false; sync.readers := sync.readers m;
                       sync.pending := sync.pending m |})
                 [EvUnlock])
  else Panic UnlockOfUnlocked.

(** [RLock] waits while the write lock is held or a writer waits for it. *)
Definition RLock : M unit := fun w =>
  let m := mtx (self w) in
  if sync.writer m || sync.pending m then Blocked
  else Ret tt (with_pool w
                 (set_mtx (self w)
                    {| sync.writer := false;
                       sync.readers := S (sync.readers m);
                       sync.pending := false |})
                 [EvRLock]).

Definition RUnlock : M unit := fun w =>
  let m := mtx (self w) in
  match sync.readers m with
  | O => Panic RUnlockOfUnlocked
  | S n => Ret tt (with_pool w
                     (set_mtx (self w)
                        {| sync.writer := sync.writer m; sync.readers := n;
                           sync.pending := sync.pending m |})
                     [EvRUnlock])
  end.

(** [p.transport = x] *)
Definition assign_transport (x : nethttp.RoundTripper) : M unit := fun w =>
  Ret tt (with_pool w
            {| mtx := mtx (self w); transport := x;
               tlsConfig := tlsConfig (self w); clients := clients (self w) |}
            [EvSetTransport x]).

(** [p.tlsConfig = c] *)
Definition assign_tlsConfig (c : ptr) : M unit := fun w =>
  Ret tt (with_pool w
            {| mtx := mtx (self w); transport := transport (self w);
               tlsConfig := c; clients := clients (self w) |}
            [EvSetTLSConfig c]).

(** [make(map[time.Duration]*http.Client)]: a new, empty, non-nil map. *)
Definition make_clientMap : clientMap := Some ∅.

(** [p.clients = make(map[time.Duration]*http.Client)] *)
Definition assign_clients_make : M unit := fun w =>
  Ret tt (with_pool w
            {| mtx := mtx (self w); transport := transport (self w);
               tlsConfig := tlsConfig (self w); clients := make_clientMap |}
            [EvMakeClients]).

(** Indexing a Go map: the zero value ([nil]) for a missing key, and for
    every key of the nil map. *)
Definition map_index (m : clientMap) (k : time.Duration) : ptr :=
  match m with
  | None => None
  | Some g => default None (g !! k)
  end.

(** [p.clients[k]] *)
Definition index_clients (k : time.Duration) : M ptr := fun w =>
  Ret (map_index (clients (self w)) k) w.

(** [p.clients[k] = c]; writing to the nil map panics. *)
Definition store_clients (k : time.Duration) (c : ptr) : M unit := fun w =>
  match clients (self w) with
  | None => Panic NilMapWrite
  | Some g =>
      Ret tt (with_pool w
                {| mtx := mtx (self w); transport := transport (self w);
                   tlsConfig := tlsConfig (self w);
                   clients := Some (<[k := c]> g) |}
                [EvStoreClient k c])
  end.

Definition read_transport : M nethttp.RoundTripper := fun w =>
  Ret (transport (self w)) w.

Definition read_tlsConfig : M ptr := fun w => Ret (tlsConfig (self w)) w.

(** [&http.Transport{...}]: a new object at an address not in use. *)
Definition new_Transport (t : nethttp.Transport) : M positive := fun w =>
  let l := fresh (dom (transportObjs w)) in
  Ret l {| clientObjs := clientObjs w;
           transportObjs := <[l := t]> (transportObjs w);
           self := self w; events := events w |}.

(** [&http.Client{...}]: a new object at an address not in use. *)
Definition new_Client (c : nethttp.Client) : M positive := fun w =>
  let l := fresh (dom (clientObjs w)) in
  Ret l {| clientObjs := <[l := c]> (clientObjs w);
           transportObjs := transportObjs w;
           self := self w; events := events w |}.

(** ** The methods of pool.go *)

Section Methods.
Local Open Scope go_scope.

Definition SetTransport (x : nethttp.RoundTripper) : M unit :=
  _ <- Lock ;;
  _ <- assign_transport x ;;
  _ <- assign_clients_make ;;
  Unlock.

Definition SetDefaultTLSConfig (c : ptr) : M unit :=
  _ <- Lock ;;
  _ <- assign_tlsConfig c ;;
  _ <- assign_clients_make ;;
  Unlock.

Definition GetClient (timeout : time.Duration) : M ptr :=
  _ <- RLock ;;
  client <- index_clients timeout ;;
  match client with
  | Some _ => _ <- RUnlock ;; ret client
  | None =>
      _ <- RUnlock ;;
      _ <- Lock ;;
      client <- index_clients timeout ;;
      client <- match client with
                | None =>
                    transport <- read_transport ;;
                    transport <-
                      match transport with
                      | nethttp.rt_nil =>
                          tls <- read_tlsConfig ;;
                          t <- new_Transport
                                 {| nethttp.Proxy := nethttp.ProxyFromEnvironment;
                                    nethttp.TLSClientConfig := tls;
                                    nethttp.Dial :=
                                      nethttp.Dialer_Dial
                                        {| net.Timeout := 30 * time.Second;
                                           net.KeepAlive := 30 * time.Second |};
                                    nethttp.TLSHandshakeTimeout := 10 * time.Second |} ;;
                          ret (nethttp.rt_Transport (Some t))
                      | _ => ret transport
                      end ;;
                    c <- new_Client {| nethttp.Transport_ := transport;
                                       nethttp.Timeout := timeout |} ;;
                    _ <- store_clients timeout (Some c) ;;
                    ret (Some c)
                | Some _ => ret client
                end ;;
      _ <- Unlock ;;
      ret client
  end.

End Methods.

(** [NewClientPool]: the zero mutex, no transport, no TLS configuration and
    an empty (non-nil) map. *)
Definition NewClientPool : pool :=
  {| mtx := sync.zero; transport := nethttp.rt_nil; tlsConfig := None;
     clients := make_clientMap |}.

(** A world whose receiver has just been returned by [NewClientPool]; the
    object stores may already hold objects made by other code. *)
Definition fresh_world (co : gmap positive nethttp.Client)
    (tro : gmap positive nethttp.Transport) : World :=
  {| clientObjs := co; transportObjs := tro; self := NewClientPool;
     events := [] |}.

(** ** Sequences of calls on one pool *)

Inductive Op :=
| CallSetTransport (x : nethttp.RoundTripper)
| CallSetDefaultTLSConfig (c : ptr)
| CallGetClient (timeout : time.Duration).

Definition call (o : Op) : M unit :=
  match o with
  | CallSetTransport x => SetTransport x
  | CallSetDefaultTLSConfig c => SetDefaultTLSConfig c
  | CallGetClient t => bind (GetClient t) (fun _ => ret tt)
  end.

Fixpoint calls (os : list Op) : M unit :=
  match os with
  | [] => ret tt
  | o :: os' => bind (call o) (fun _ => calls os')
  end.

Definition is_SetTransport (o : Op) : bool :=
  match o with CallSetTransport _ => true | _ => false end.

Definition is_Set (o : Op) : bool :=
  match o with CallGetClient _ => false | _ => true end.

(** ** The invariant of a pool between calls *)

(** A cache entry under key [k] is a non-nil pointer to a client object whose
    timeout is [k]. *)
Definition entry_ok (co : gmap positive nethttp.Client)
    (k : time.Duration) (c : ptr) : Prop :=
  match c with
  | Some l =>
      match co !! l with
      | Some cl => nethttp.Timeout cl = k
      | None => False
      end
  | None => False
  end.

(** Between calls the mutex is free, the map is not the nil map, and every
    entry is as [entry_ok] says.  [NewClientPool] establishes this and every
    method keeps it ([reachable_pool_ok] below); [pool] and its fields are
    unexported, so no other pool exists outside the package.  Client objects
    are written once, by the composite literal that makes them: the pool
    never assigns to a field of a client, and code that did so from outside
    is not part of this development. *)
Definition pool_ok (w : World) : Prop :=
  mtx (self w) = sync.zero /\
  match clients (self w) with
  | Some g => map_Forall (entry_ok (clientObjs w)) g
  | None => False
  end.

#[global] Instance RWMutex_eq_dec : EqDecision sync.RWMutex.
Proof. solve_decision. Defined.

#[global] Instance entry_ok_dec co k c : Decision (entry_ok co k c).
Proof.
  unfold entry_ok. destruct c as [l|]; [|apply _].
  destruct (co !! l); apply _.
Defined.

#[global] Instance pool_ok_dec w : Decision (pool_ok w).
Proof.
  unfold pool_ok. destruct (clients (self w)); apply _.
Defined.

(** ** Worlds that the statements below speak of *)

(** The world after a call that found its entry: only the trace grew. *)
Definition looked_up (w : World) : World :=
  {| clientObjs := clientObjs w; transportObjs := transportObjs w;
     self := self w; events := events w ++ [EvRLock; EvRUnlock] |}.

(** The world after a call that built a client around the round tripper [x]
    and stored it under [t] in the map [g]; [tro] is the transport store
    after the call. *)
Definition stored (w : World) (t : Z) (g : gmap Z (option positive))
    (x : nethttp.RoundTripper) (tro : gmap positive nethttp.Transport)
    : World :=
  let l := fresh (dom (clientObjs w)) in
  {| clientObjs :=
       <[l := {| nethttp.Transport_ := x; nethttp.Timeout := t |}]>
         (clientObjs w);
     transportObjs := tro;
     self := {| mtx := sync.zero; transport := transport (self w);
                tlsConfig := tlsConfig (self w);
                clients := Some (<[t := Some l]> g) |};
     events := events w ++
               [EvRLock; EvRUnlock; EvLock; EvStoreClient t (Some l);
                EvUnlock] |}.

(** The transport [GetClient] builds when the pool has none. *)
Definition built_transport (tls : option positive) : nethttp.Transport :=
  {| nethttp.Proxy := nethttp.ProxyFromEnvironment;
     nethttp.TLSClientConfig := tls;
     nethttp.Dial :=
       nethttp.Dialer_Dial
         {| net.Timeout := 30000000000; net.KeepAlive := 30000000000 |};
     nethttp.TLSHandshakeTimeout := 10000000000 |}.

(** The same world with another TLS configuration in the pool. *)
Definition with_tlsConfig (w : World) (c : option positive) : World :=
  {| clientObjs := clientObjs w; transportObjs := transportObjs w;
     self := {| mtx := mtx (self w); transport := transport (self w);
                tlsConfig := c; clients := clients (self w) |};
     events := events w |}.

(** What holds of a pool after [SetTransport T] in the world [w0] and any
    number of calls other than [SetTransport]: every client object that did
    not exist in [w0], and every cached client, is built around [T]. *)
Definition only_T (w0 : World) (T : nethttp.RoundTripper) (w : World) : Prop :=
  pool_ok w /\
  transport (self w) = T /\
  (forall l cl,
      clientObjs w0 !! l = None -> clientObjs w !! l = Some cl ->
      nethttp.Transport_ cl = T) /\
  (forall k l,
      map_index (clients (self w)) k = Some l ->
      exists cl, clientObjs w !! l = Some cl /\ nethttp.Transport_ cl = T).

(** A pool with one cached client (timeout 5ns) built around a custom round
    tripper, and one foreign client object; used to instantiate the theorems
    below. *)
Definition sample_world : World :=
  {| clientObjs :=
       {[ 1%positive := {| nethttp.Transport_ := nethttp.rt_other 9;
                           nethttp.Timeout := 5 |};
          2%positive := {| nethttp.Transport_ := nethttp.rt_nil;
                           nethttp.Timeout := 0 |} ]};
     transportObjs := ∅;
     self := {| mtx := sync.zero; transport := nethttp.rt_other 9;
                tlsConfig := Some 4%positive;
                clients := Some {[ 5 := Some 1%positive ]} |};
     events := [] |}.

(** ** Further notions: lock discipline, settings in force, cached keys *)

(** [var DefaultClientPool = NewClientPool()] *)
Definition DefaultClientPool : pool := NewClientPool.

(** A world whose receiver is the zero value [pool{}]: its map is the nil
    map.  No exported function makes such a pool. *)
Definition zero_world (co : gmap positive nethttp.Client)
    (tro : gmap positive nethttp.Transport) : World :=
  {| clientObjs := co; transportObjs := tro;
     self := {| mtx := sync.zero; transport := nethttp.rt_nil;
                tlsConfig := None; clients := None |};
     events := [] |}.

(** Which lock the calling goroutine holds, as read off a trace. *)
Inductive Held := HeldNone | HeldRead | HeldWrite.

(** One event of a trace that respects the lock: locks are taken when none is
    held and released when held, and the pool's fields are written only
    under the write lock. *)
Definition guard_step (h : Held) (e : Event) : option Held :=
  match e, h with
  | EvLock, HeldNone => Some HeldWrite
  | EvUnlock, HeldWrite => Some HeldNone
  | EvRLock, HeldNone => Some HeldRead
  | EvRUnlock, HeldRead => Some HeldNone
  | EvSetTransport _, HeldWrite => Some HeldWrite
  | EvSetTLSConfig _, HeldWrite => Some HeldWrite
  | EvMakeClients, HeldWrite => Some HeldWrite
  | EvStoreClient _ _, HeldWrite => Some HeldWrite
  | _, _ => None
  end.

Fixpoint guarded_from (h : Held) (es : list Event) : option Held :=
  match es with
  | [] => Some h
  | e :: es' =>
      match guard_step h e with
      | Some h' => guarded_from h' es'
      | None => None
      end
  end.

(** The settings a sequence of calls leaves in force: the argument of the
    last [SetTransport] and of the last [SetDefaultTLSConfig]. *)
Definition settings_step (s : nethttp.RoundTripper * option positive)
    (o : Op) : nethttp.RoundTripper * option positive :=
  match o with
  | CallSetTransport x => (x, s.2)
  | CallSetDefaultTLSConfig c => (s.1, c)
  | CallGetClient _ => s
  end.

Definition settings_of (w : World) : nethttp.RoundTripper * option positive :=
  (transport (self w), tlsConfig (self w)).

(** The timeouts asked for since the last change of settings. *)
Definition keys_step (ks : gset Z) (o : Op) : gset Z :=
  match o with
  | CallGetClient t => {[t]} ∪ ks
  | _ => ∅
  end.

(** How many calls of a sequence ask for a timeout that was not asked for
    since the last change of settings; [ks] are the timeouts asked for
    before the sequence. *)
Fixpoint misses (ks : gset Z) (os : list Op) : nat :=
  match os with
  | [] => 0%nat
  | o :: os' =>
      ((match o with
        | CallGetClient t => if decide (t ∈ ks) then 0 else 1
        | _ => 0
        end) + misses (keys_step ks o) os')%nat
  end.

(** A client built with the settings now in force: around the pool's
    transport if there is one, else around a transport object of its own
    that carries the pool's TLS configuration and the default time limits. *)
Definition client_current (w : World) (cl : nethttp.Client) : Prop :=
  match transport (self w) with
  | nethttp.rt_nil =>
      match nethttp.Transport_ cl with
      | nethttp.rt_Transport (Some lt) =>
          transportObjs w !! lt
          = Some (built_transport (tlsConfig (self w)))
      | _ => False
      end
  | T => nethttp.Transport_ cl = T
  end.

Definition cache_current (w : World) : Prop :=
  forall k l, map_index (clients (self w)) k = Some l ->
    exists cl, clientObjs w !! l = Some cl /\ client_current w cl.

Definition sets_nil_transport (o : Op) : bool :=
  match o with
  | CallSetTransport nethttp.rt_nil => true
  | _ => false
  end.

(** The same world with the mutex in another state. *)
Definition with_mtx (w : World) (m : sync.RWMutex) : World :=
  {| clientObjs := clientObjs w; transportObjs := transportObjs w;
     self := set_mtx (self w) m; events := events w |}.

(** * Lemmas

    The equations of the methods, the invariant, and then the properties
    of the pool one by one. *)

(** ** The equations of the methods on a pool whose mutex is free *)

Ltac go_unfold :=
  unfold GetClient, SetTransport, SetDefaultTLSConfig, bind, ret,
    Lock, Unlock, RLock, RUnlock, assign_transport, assign_tlsConfig,
    assign_clients_make, index_clients, store_clients, read_transport,
    read_tlsConfig, new_Transport, new_Client, with_pool, set_mtx,
    make_clientMap, sync.zero in *.

Ltac open_world w :=
  let co := fresh "co" in
  let tro := fresh "tro" in
  let m := fresh "m" in
  let tr := fresh "tr" in
  let tls := fresh "tls" in
  let cl := fresh "cl" in
  let ev := fresh "ev" in
  destruct w as [co tro [m tr tls cl] ev]; simpl in *.

Lemma SetTransport_eq (w : World) (x : nethttp.RoundTripper) :
  mtx (self w) = sync.zero ->
  SetTransport x w =
    Ret tt {| clientObjs := clientObjs w; transportObjs := transportObjs w;
              self := {| mtx := sync.zero; transport := x;
                         tlsConfig := tlsConfig (self w);
                         clients := Some ∅ |};
              events := events w ++
                        [EvLock; EvSetTransport x; EvMakeClients; EvUnlock] |}.
Proof.
  open_world w. intros ->. go_unfold. simpl.
  by rewrite <- !app_assoc.
Qed.

Lemma SetDefaultTLSConfig_eq (w : World) (c : option positive) :
  mtx (self w) = sync.zero ->
  SetDefaultTLSConfig c w =
    Ret tt {| clientObjs := clientObjs w; transportObjs := transportObjs w;
              self := {| mtx := sync.zero; transport := transport (self w);
                         tlsConfig := c; clients := Some ∅ |};
              events := events w ++
                        [EvLock; EvSetTLSConfig c; EvMakeClients; EvUnlock] |}.
Proof.
  open_world w. intros ->. go_unfold. simpl.
  by rewrite <- !app_assoc.
Qed.

(** Fast path: the entry is there, nothing but the trace changes. *)
Lemma GetClient_hit (w : World) (t : Z) (l : positive) :
  mtx (self w) = sync.zero ->
  map_index (clients (self w)) t = Some l ->
  GetClient t w = Ret (Some l) (looked_up w).
Proof.
  open_world w. intros -> Hidx. go_unfold. simpl. rewrite Hidx. simpl.
  unfold looked_up. simpl. by rewrite <- !app_assoc.
Qed.

(** Slow path with a transport set on the pool. *)
Lemma GetClient_miss_custom (w : World) (t : Z)
    (g : gmap Z (option positive)) :
  mtx (self w) = sync.zero ->
  clients (self w) = Some g ->
  map_index (Some g) t = None ->
  transport (self w) <> nethttp.rt_nil ->
  GetClient t w =
    Ret (Some (fresh (dom (clientObjs w))))
        (stored w t g (transport (self w)) (transportObjs w)).
Proof.
  open_world w. intros -> -> Hidx Htr. go_unfold. simpl. rewrite Hidx. simpl.
  rewrite Hidx. unfold stored.
  destruct tr; [done| |]; simpl; by rewrite <- !app_assoc.
Qed.

(** Slow path with no transport set: a default transport is built first. *)
Lemma GetClient_miss_default (w : World) (t : Z)
    (g : gmap Z (option positive)) :
  mtx (self w) = sync.zero ->
  clients (self w) = Some g ->
  map_index (Some g) t = None ->
  transport (self w) = nethttp.rt_nil ->
  let lt := fresh (dom (transportObjs w)) in
  GetClient t w =
    Ret (Some (fresh (dom (clientObjs w))))
        (stored w t g (nethttp.rt_Transport (Some lt))
           (<[lt := built_transport (tlsConfig (self w))]> (transportObjs w))).
Proof.
  open_world w. intros -> -> Hidx ->. go_unfold. simpl. rewrite Hidx. simpl.
  rewrite Hidx. unfold stored. simpl. by rewrite <- !app_assoc.
Qed.

(** On the zero value of [pool] (nil map) the slow path faults, with the
    write lock still held. *)
Lemma GetClient_nil_map (w : World) (t : Z) :
  mtx (self w) = sync.zero ->
  clients (self w) = None ->
  GetClient t w = Panic NilMapWrite.
Proof.
  open_world w. intros -> ->. go_unfold. simpl.
  destruct tr; reflexivity.
Qed.

(** ** Facts about the store and the invariant *)

Lemma fresh_client_unused (co : gmap positive nethttp.Client) :
  co !! fresh (dom co) = None.
Proof. apply not_elem_of_dom, is_fresh. Qed.

Lemma fresh_transport_unused (tro : gmap positive nethttp.Transport) :
  tro !! fresh (dom tro) = None.
Proof. apply not_elem_of_dom, is_fresh. Qed.

Lemma entry_ok_inv co k c :
  entry_ok co k c ->
  exists l cl, c = Some l /\ co !! l = Some cl /\ nethttp.Timeout cl = k.
Proof.
  unfold entry_ok. destruct c as [l|]; [|done].
  destruct (co !! l) as [cl|] eqn:E; [|done]. eauto.
Qed.

Lemma entry_ok_mono co co' k c :
  co ⊆ co' -> entry_ok co k c -> entry_ok co' k c.
Proof.
  intros Hsub (l & cl & -> & Hl & Ht)%entry_ok_inv.
  unfold entry_ok. by rewrite (lookup_weaken _ _ _ _ Hl Hsub).
Qed.

(** Under the invariant, indexing yields nil exactly for the missing keys. *)
Lemma pool_ok_index_None (w : World) (g : gmap Z (option positive)) (t : Z) :
  pool_ok w -> clients (self w) = Some g ->
  map_index (Some g) t = None -> g !! t = None.
Proof.
  intros [_ Hall] Hg. rewrite Hg in Hall. unfold map_index.
  destruct (g !! t) as [c|] eqn:E; [|done]. simpl. intros ->.
  by apply Hall in E.
Qed.

Lemma pool_ok_index_Some (w : World) (t : Z) (l : positive) :
  pool_ok w -> map_index (clients (self w)) t = Some l ->
  exists cl, clientObjs w !! l = Some cl /\ nethttp.Timeout cl = t.
Proof.
  intros [_ Hall]. destruct (clients (self w)) as [g|]; [|done].
  unfold map_index.
  destruct (g !! t) as [c|] eqn:E; [|done]. simpl. intros ->.
  apply Hall in E. apply entry_ok_inv in E as (l' & cl & [= <-] & ? & ?).
  eauto.
Qed.

Lemma pool_ok_fresh_world co tro : pool_ok (fresh_world co tro).
Proof. split; [done|]. simpl. apply map_Forall_empty. Qed.

Lemma pool_ok_looked_up (w : World) : pool_ok w -> pool_ok (looked_up w).
Proof. done. Qed.

Lemma pool_ok_stored (w : World) t g x tro :
  pool_ok w -> clients (self w) = Some g -> pool_ok (stored w t g x tro).
Proof.
  intros [_ Hall] Hg. rewrite Hg in Hall. split; [done|]. simpl.
  apply map_Forall_insert_2.
  - unfold entry_ok. by rewrite lookup_insert_eq.
  - eapply map_Forall_impl; [exact Hall|]. intros k c.
    apply entry_ok_mono, insert_subseteq, fresh_client_unused.
Qed.

(** What a call of [GetClient] does to a pool that satisfies the invariant:
    either it finds the entry, or it allocates a client (and, when the pool
    has no transport, a transport) and stores it. *)
Lemma GetClient_cases (w : World) (t : Z) :
  pool_ok w ->
  (exists l, map_index (clients (self w)) t = Some l /\
             GetClient t w = Ret (Some l) (looked_up w)) \/
  (exists g x tro,
      clients (self w) = Some g /\ g !! t = None /\
      GetClient t w =
        Ret (Some (fresh (dom (clientObjs w)))) (stored w t g x tro) /\
      match transport (self w) with
      | nethttp.rt_nil =>
          let lt := fresh (dom (transportObjs w)) in
          x = nethttp.rt_Transport (Some lt) /\
          tro = <[lt := built_transport (tlsConfig (self w))]>
                  (transportObjs w)
      | y => x = y /\ tro = transportObjs w
      end).
Proof.
  intros Hok. pose proof Hok as [Hm Hall].
  destruct (clients (self w)) as [g|] eqn:Hg; [|done].
  destruct (map_index (Some g) t) as [l|] eqn:Hidx.
  - left. exists l. split; [done|]. apply GetClient_hit; [done|].
    by rewrite Hg.
  - right. pose proof (pool_ok_index_None w g t Hok Hg Hidx) as Hnone.
    destruct (transport (self w)) eqn:Htr.
    + eexists g, _, _. do 2 (split; [done|]).
      split; [by apply GetClient_miss_default|]. by split.
    + eexists g, _, _. do 2 (split; [done|]).
      split; [apply GetClient_miss_custom; try done; by rewrite Htr|].
      by rewrite Htr.
    + eexists g, _, _. do 2 (split; [done|]).
      split; [apply GetClient_miss_custom; try done; by rewrite Htr|].
      by rewrite Htr.
Qed.

(** The postcondition of [GetClient] used throughout. *)
Lemma GetClient_post (w : World) (t : Z) :
  pool_ok w ->
  exists (l : positive) (w' : World),
    GetClient t w = Ret (Some l) w' /\
    pool_ok w' /\
    map_index (clients (self w')) t = Some l /\
    clientObjs w ⊆ clientObjs w' /\
    transportObjs w ⊆ transportObjs w' /\
    transport (self w') = transport (self w) /\
    tlsConfig (self w') = tlsConfig (self w) /\
    (forall t', t' <> t ->
       map_index (clients (self w')) t' = map_index (clients (self w)) t').
Proof.
  intros Hok. destruct (GetClient_cases w t Hok)
    as [(l & Hidx & Heq)|(g & x & tro & Hg & Hnone & Heq & Hx)].
  - exists l, (looked_up w). by split_and!.
  - eexists _, _. split; [exact Heq|]. split_and!.
    + by apply pool_ok_stored.
    + simpl. by rewrite lookup_insert_eq.
    + apply insert_subseteq, fresh_client_unused.
    + simpl. destruct (transport (self w)); destruct Hx as [_ ->]; try done.
      apply insert_subseteq, fresh_transport_unused.
    + done.
    + done.
    + intros t' Hne. simpl. rewrite Hg. simpl. by rewrite lookup_insert_ne.
Qed.

Lemma sample_world_ok : pool_ok sample_world.
Proof. refine (bool_decide_unpack _ _). vm_compute. exact I. Qed.

(** A pool whose map has just been replaced by an empty one satisfies the
    invariant. *)
Lemma pool_ok_cleared (w : World) :
  mtx (self w) = sync.zero -> clients (self w) = Some ∅ -> pool_ok w.
Proof.
  intros Hm Hc. split; [done|]. rewrite Hc. apply map_Forall_empty.
Qed.

(** What one call does to the map: [Set*] replaces it by an empty one,
    [GetClient] keeps every entry. *)
Lemma call_cache (o : Op) (w : World) :
  pool_ok w ->
  exists (w' : World) (g g' : gmap Z (option positive)),
    call o w = Ret tt w' /\
    pool_ok w' /\
    clients (self w) = Some g /\
    clients (self w') = Some g' /\
    if is_Set o then g' = ∅ else g ⊆ g'.
Proof.
  intros Hok. pose proof Hok as [Hm Hall].
  destruct (clients (self w)) as [g|] eqn:Hg; [|done].
  destruct o as [x|c|t]; simpl.
  - rewrite (SetTransport_eq w x Hm). eexists _, g, ∅.
    split_and!; try done; by apply pool_ok_cleared.
  - rewrite (SetDefaultTLSConfig_eq w c Hm). eexists _, g, ∅.
    split_and!; try done; by apply pool_ok_cleared.
  - unfold bind, ret.
    destruct (GetClient_cases w t Hok)
      as [(l & Hidx & ->)|(g0 & x & tro & Hg0 & Hnone & -> & _)].
    + exists (looked_up w), g, g. by split_and!.
    + rewrite Hg in Hg0. injection Hg0 as <-.
      eexists _, g, _. split_and!; try done.
      * by apply pool_ok_stored.
      * by apply insert_subseteq.
Qed.

(** Calls of [GetClient] alone, however many, keep every entry. *)
Lemma calls_no_Set_cache (os : list Op) (w : World) :
  forallb (fun o => negb (is_Set o)) os = true ->
  pool_ok w ->
  exists (w' : World) (g g' : gmap Z (option positive)),
    calls os w = Ret tt w' /\
    pool_ok w' /\
    clients (self w) = Some g /\
    clients (self w') = Some g' /\
    g ⊆ g'.
Proof.
  revert w. induction os as [|o os IH]; intros w Hos Hok.
  - destruct Hok as [Hm Hall].
    destruct (clients (self w)) as [g|] eqn:Hg; [|done].
    exists w, g, g. split_and!; try done. split; [done|]. by rewrite Hg.
  - simpl in Hos. apply andb_true_iff in Hos as [Ho Hos].
    destruct (call_cache o w Hok) as (w1 & g & g1 & Heq & Hok1 & Hg & Hg1 & Hsub).
    apply negb_true_iff in Ho. rewrite Ho in Hsub.
    destruct (IH w1 Hos Hok1) as (w' & g1' & g' & Heq' & Hok' & Hg1' & Hg' & Hsub').
    rewrite Hg1 in Hg1'. injection Hg1' as <-.
    exists w', g, g'. split_and!; try done.
    + simpl. unfold bind. by rewrite Heq.
    + by transitivity g1.
Qed.

(** C1. Two calls [GetClient t] on a pool, with no call of [SetTransport] or
    [SetDefaultTLSConfig] in between (directly one after the other when [os]
    is empty, or with other [GetClient] calls in between), return the same
    client: the first call leaves its result cached under [t], and the second
    call returns that very pointer, creating no object. *)
Theorem C1_GetClient_twice_same (w : World) (t : Z) (os : list Op) :
  pool_ok w ->
  forallb (fun o => negb (is_Set o)) os = true ->
  exists (l : positive) (w1 w2 : World),
    GetClient t w = Ret (Some l) w1 /\
    map_index (clients (self w1)) t = Some l /\
    calls os w1 = Ret tt w2 /\
    GetClient t w2 = Ret (Some l) (looked_up w2).
Proof.
  intros Hok Hos.
  destruct (GetClient_post w t Hok) as (l & w1 & Heq & Hok1 & Hidx & _).
  destruct (calls_no_Set_cache os w1 Hos Hok1)
    as (w2 & g & g' & Heq2 & [Hm2 _] & Hg & Hg' & Hsub).
  exists l, w1, w2. split_and!; try done.
  apply GetClient_hit; [done|]. rewrite Hg' . rewrite Hg in Hidx.
  unfold map_index in *.
  destruct (g !! t) as [c|] eqn:E; [|done]. simpl in Hidx. subst c.
  by rewrite (lookup_weaken _ _ _ _ E Hsub).
Qed.

Lemma C1_GetClient_twice_same_witness :
  exists (l : positive) (w1 w2 : World),
    GetClient (-7) sample_world = Ret (Some l) w1 /\
    map_index (clients (self w1)) (-7) = Some l /\
    calls [CallGetClient 5; CallGetClient 0] w1 = Ret tt w2 /\
    GetClient (-7) w2 = Ret (Some l) (looked_up w2).
Proof.
  apply (C1_GetClient_twice_same sample_world (-7)
           [CallGetClient 5; CallGetClient 0]).
  - refine (bool_decide_unpack _ _); vm_compute; exact I.
  - vm_compute; reflexivity.
Defined.




(** C3. For every timeout [t], zero and negative ones included, the client
    that [GetClient t] returns has [Timeout] equal to [t]. *)
Theorem C3_GetClient_timeout (w : World) (t : Z) :
  pool_ok w ->
  exists (l : positive) (w' : World) (cl : nethttp.Client),
    GetClient t w = Ret (Some l) w' /\
    clientObjs w' !! l = Some cl /\
    nethttp.Timeout cl = t.
Proof.
  intros Hok.
  destruct (GetClient_post w t Hok) as (l & w' & Heq & Hok' & Hidx & _).
  destruct (pool_ok_index_Some w' t l Hok' Hidx) as (cl & Hl & Ht).
  by exists l, w', cl.
Qed.

(** The example of pool_test.go: a new pool asked for a 10ns client. *)
Lemma C3_GetClient_timeout_witness :
  pool_ok (fresh_world ∅ ∅) /\
  exists (l : positive) (w' : World) (cl : nethttp.Client),
    GetClient (10 * time.Nanosecond) (fresh_world ∅ ∅) = Ret (Some l) w' /\
    clientObjs w' !! l = Some cl /\
    nethttp.Timeout cl = 10.
Proof.
  assert (H : pool_ok (fresh_world ∅ ∅))
    by (refine (bool_decide_unpack _ _); vm_compute; exact I).
  split; [exact H|].
  exact (C3_GetClient_timeout (fresh_world ∅ ∅) (10 * time.Nanosecond) H).
Defined.

Lemma Second_in_nanoseconds : time.Second = 1000000000.
Proof. reflexivity. Qed.

(** C4. When [GetClient t] has to construct a client and the pool has no
    transport, the client's transport is a [*http.Transport] allocated by
    this call, with [Proxy] the environment-derived resolver, the pool's
    current TLS configuration, a dialer with 30s timeout and 30s keep-alive,
    and a 10s TLS handshake timeout. *)
Theorem C4_default_transport_built (w : World) (t : Z)
    (g : gmap Z (option positive)) :
  mtx (self w) = sync.zero ->
  clients (self w) = Some g ->
  map_index (Some g) t = None ->
  transport (self w) = nethttp.rt_nil ->
  exists (l lt : positive) (w' : World) (tr : nethttp.Transport),
    GetClient t w = Ret (Some l) w' /\
    clientObjs w' !! l =
      Some {| nethttp.Transport_ := nethttp.rt_Transport (Some lt);
              nethttp.Timeout := t |} /\
    transportObjs w !! lt = None /\
    transportObjs w' !! lt = Some tr /\
    nethttp.Proxy tr = nethttp.ProxyFromEnvironment /\
    nethttp.TLSClientConfig tr = tlsConfig (self w) /\
    nethttp.Dial tr =
      nethttp.Dialer_Dial {| net.Timeout := 30 * time.Second;
                             net.KeepAlive := 30 * time.Second |} /\
    nethttp.TLSHandshakeTimeout tr = 10 * time.Second /\
    time.Second = 1000000000 * time.Nanosecond.
Proof.
  intros Hm Hg Hidx Htr.
  exists (fresh (dom (clientObjs w))), (fresh (dom (transportObjs w))).
  eexists _, _. split; [by apply GetClient_miss_default|]. simpl.
  rewrite !lookup_insert_eq. split_and!; try done.
  apply fresh_transport_unused.
Qed.

Lemma C4_default_transport_built_witness :
  exists (l lt : positive) (w' : World) (tr : nethttp.Transport),
    GetClient 3 (fresh_world ∅ ∅) = Ret (Some l) w' /\
    clientObjs w' !! l =
      Some {| nethttp.Transport_ := nethttp.rt_Transport (Some lt);
              nethttp.Timeout := 3 |} /\
    transportObjs (fresh_world ∅ ∅) !! lt = None /\
    transportObjs w' !! lt = Some tr /\
    nethttp.Proxy tr = nethttp.ProxyFromEnvironment /\
    nethttp.TLSClientConfig tr = None /\
    nethttp.Dial tr =
      nethttp.Dialer_Dial {| net.Timeout := 30 * time.Second;
                             net.KeepAlive := 30 * time.Second |} /\
    nethttp.TLSHandshakeTimeout tr = 10 * time.Second /\
    time.Second = 1000000000 * time.Nanosecond.
Proof.
  apply (C4_default_transport_built (fresh_world ∅ ∅) 3 ∅);
    vm_compute; reflexivity.
Defined.

(** ** Call sequences that keep a custom transport *)

Section CustomTransport.
Variable w0 : World.
Variable T : nethttp.RoundTripper.
Hypothesis T_not_nil : T <> nethttp.rt_nil.

Lemma only_T_GetClient (w : World) (t : Z) :
  only_T w0 T w ->
  exists l w',
    GetClient t w = Ret (Some l) w' /\ only_T w0 T w' /\
    map_index (clients (self w')) t = Some l.
Proof using T_not_nil.
  intros (Hok & HT & Hnew & Hcache).
  destruct (GetClient_cases w t Hok)
    as [(l & Hidx & Heq)|(g & x & tro & Hg & Hnone & Heq & Hx)].
  - eexists _, _. split; [exact Heq|]. by split_and!.
  - assert (x = T) as ->.
    { rewrite HT in Hx. destruct T; [done| |]; by destruct Hx. }
    eexists _, _. split; [exact Heq|].
    split; [|by simpl; rewrite lookup_insert_eq]. split_and!.
    + by apply pool_ok_stored.
    + done.
    + intros l cl Hl0. simpl.
      destruct (decide (fresh (dom (clientObjs w)) = l)) as [<-|Hne].
      * rewrite lookup_insert_eq. by intros [= <-].
      * rewrite lookup_insert_ne; [|done]. by apply Hnew.
    + intros k l. simpl.
      destruct (decide (t = k)) as [<-|Hne].
      * rewrite lookup_insert_eq. simpl. intros [= <-].
        rewrite lookup_insert_eq. by eexists.
      * rewrite lookup_insert_ne; [|done]. intros Hk.
        destruct (Hcache k l) as (cl & Hl & Hcl).
        { by rewrite Hg. }
        exists cl. split; [|done].
        eapply lookup_weaken; [exact Hl|].
        apply insert_subseteq, fresh_client_unused.
Qed.

Lemma only_T_SetDefaultTLSConfig (w : World) (c : option positive) :
  only_T w0 T w ->
  exists w', SetDefaultTLSConfig c w = Ret tt w' /\ only_T w0 T w'.
Proof.
  intros ([Hm Hall] & HT & Hnew & Hcache).
  rewrite (SetDefaultTLSConfig_eq w c Hm). eexists. split; [done|].
  split_and!; [by apply pool_ok_cleared|done|done|done].
Qed.

Lemma only_T_calls (os : list Op) (w : World) :
  forallb (fun o => negb (is_SetTransport o)) os = true ->
  only_T w0 T w ->
  exists w', calls os w = Ret tt w' /\ only_T w0 T w'.
Proof using T_not_nil.
  revert w. induction os as [|o os IH]; intros w Hos Hw.
  - by exists w.
  - simpl in Hos. apply andb_true_iff in Hos as [Ho Hos].
    destruct o as [x|c|t]; [done| |]; simpl; unfold bind.
    + destruct (only_T_SetDefaultTLSConfig w c Hw) as (w' & -> & Hw').
      by apply IH.
    + destruct (only_T_GetClient w t Hw) as (l & w' & -> & Hw' & _).
      simpl. by apply IH.
Qed.

Lemma only_T_SetTransport :
  mtx (self w0) = sync.zero ->
  exists w', SetTransport T w0 = Ret tt w' /\ only_T w0 T w'.
Proof.
  intros Hm. rewrite (SetTransport_eq w0 T Hm). eexists. split; [done|].
  split_and!; [by apply pool_ok_cleared|done| |done].
  simpl. intros l cl ->. done.
Qed.
End CustomTransport.

(** C5. After [SetTransport T] with [T] not nil, and through any calls that
    are not [SetTransport], every client that [GetClient] constructs (every
    client object that came into being since) has [Transport] equal to [T]
    itself, and so has the client a further [GetClient t] returns. *)
Theorem C5_custom_transport_reused (w : World) (T : nethttp.RoundTripper)
    (os : list Op) (t : Z) :
  mtx (self w) = sync.zero ->
  T <> nethttp.rt_nil ->
  forallb (fun o => negb (is_SetTransport o)) os = true ->
  exists (w1 w2 : World) (l : positive) (cl : nethttp.Client),
    bind (SetTransport T) (fun _ => calls os) w = Ret tt w1 /\
    (forall l' cl',
        clientObjs w !! l' = None -> clientObjs w1 !! l' = Some cl' ->
        nethttp.Transport_ cl' = T) /\
    GetClient t w1 = Ret (Some l) w2 /\
    clientObjs w2 !! l = Some cl /\
    nethttp.Transport_ cl = T.
Proof.
  intros Hm HT Hos. unfold bind.
  destruct (only_T_SetTransport w T Hm) as (wa & -> & Ha).
  destruct (only_T_calls w T HT os wa Hos Ha) as (w1 & -> & H1).
  destruct (only_T_GetClient w T HT w1 t H1) as (l & w2 & Heq & H2 & Hidx).
  destruct H2 as (_ & _ & _ & Hcache). destruct (Hcache t l Hidx) as (cl & ? & ?).
  exists w1, w2, l, cl. split_and!; try done. by destruct H1 as (_ & _ & ? & _).
Qed.

Lemma C5_custom_transport_reused_witness :
  exists (w1 w2 : World) (l : positive) (cl : nethttp.Client),
    bind (SetTransport (nethttp.rt_other 3))
      (fun _ => calls [CallGetClient 5; CallSetDefaultTLSConfig None;
                       CallGetClient 0])
      sample_world = Ret tt w1 /\
    (forall l' cl',
        clientObjs sample_world !! l' = None ->
        clientObjs w1 !! l' = Some cl' ->
        nethttp.Transport_ cl' = nethttp.rt_other 3) /\
    GetClient 5 w1 = Ret (Some l) w2 /\
    clientObjs w2 !! l = Some cl /\
    nethttp.Transport_ cl = nethttp.rt_other 3.
Proof.
  apply (C5_custom_transport_reused sample_world (nethttp.rt_other 3)
           [CallGetClient 5; CallSetDefaultTLSConfig None; CallGetClient 0] 5).
  - vm_compute; reflexivity.
  - discriminate.
  - vm_compute; reflexivity.
Defined.

(** ** The TLS configuration and a custom transport *)

Lemma pool_ok_with_tlsConfig (w : World) (c : option positive) :
  pool_ok w -> pool_ok (with_tlsConfig w c).
Proof. done. Qed.

Lemma GetClient_tlsConfig_irrelevant (w : World) (t : Z) :
  pool_ok w ->
  transport (self w) <> nethttp.rt_nil ->
  exists (l : positive) (w' : World) (cl : nethttp.Client),
    pool_ok w' /\
    transport (self w') = transport (self w) /\
    clientObjs w' !! l = Some cl /\
    forall c, GetClient t (with_tlsConfig w c)
              = Ret (Some l) (with_tlsConfig w' c).
Proof.
  intros Hok Htr. pose proof Hok as [Hm Hall].
  destruct (clients (self w)) as [g|] eqn:Hg; [|done].
  destruct (map_index (Some g) t) as [l|] eqn:Hidx.
  - destruct (pool_ok_index_Some w t l Hok) as (cl & Hl & _).
    { by rewrite Hg. }
    exists l, (looked_up w), cl. split_and!; try done.
    intros c. rewrite (GetClient_hit (with_tlsConfig w c) t l); try done.
    simpl. by rewrite Hg.
  - eexists (fresh (dom (clientObjs w))),
      (stored w t g (transport (self w)) (transportObjs w)), _.
    split_and!.
    + by apply pool_ok_stored.
    + done.
    + simpl. by rewrite lookup_insert_eq.
    + intros c.
      by rewrite (GetClient_miss_custom (with_tlsConfig w c) t g).
Qed.

(** C6. With a non-nil transport set, the TLS configuration has no bearing on
    what [GetClient] constructs: two pools that differ in [tlsConfig] only
    return clients with the same transport and the same timeout, and after
    the call they still differ in [tlsConfig] only, so the same holds of
    every later call. *)
Theorem C6_tlsConfig_unused_with_custom_transport (w : World)
    (c1 c2 : option positive) (t : Z) :
  pool_ok w ->
  transport (self w) <> nethttp.rt_nil ->
  exists (l1 l2 : positive) (w' : World) (cl1 cl2 : nethttp.Client),
    GetClient t (with_tlsConfig w c1) = Ret (Some l1) (with_tlsConfig w' c1) /\
    GetClient t (with_tlsConfig w c2) = Ret (Some l2) (with_tlsConfig w' c2) /\
    clientObjs (with_tlsConfig w' c1) !! l1 = Some cl1 /\
    clientObjs (with_tlsConfig w' c2) !! l2 = Some cl2 /\
    nethttp.Transport_ cl1 = nethttp.Transport_ cl2 /\
    nethttp.Timeout cl1 = nethttp.Timeout cl2 /\
    pool_ok w' /\
    transport (self w') <> nethttp.rt_nil.
Proof.
  intros Hok Htr.
  destruct (GetClient_tlsConfig_irrelevant w t Hok Htr)
    as (l & w' & cl & Hok' & Htr' & Hl & Heq).
  exists l, l, w', cl, cl. split_and!; try done. by rewrite Htr'.
Qed.

Lemma C6_tlsConfig_unused_with_custom_transport_witness :
  exists (l1 l2 : positive) (w' : World) (cl1 cl2 : nethttp.Client),
    GetClient 8 (with_tlsConfig sample_world None)
      = Ret (Some l1) (with_tlsConfig w' None) /\
    GetClient 8 (with_tlsConfig sample_world (Some 6%positive))
      = Ret (Some l2) (with_tlsConfig w' (Some 6%positive)) /\
    clientObjs (with_tlsConfig w' None) !! l1 = Some cl1 /\
    clientObjs (with_tlsConfig w' (Some 6%positive)) !! l2 = Some cl2 /\
    nethttp.Transport_ cl1 = nethttp.Transport_ cl2 /\
    nethttp.Timeout cl1 = nethttp.Timeout cl2 /\
    pool_ok w' /\
    transport (self w') <> nethttp.rt_nil.
Proof.
  apply (C6_tlsConfig_unused_with_custom_transport sample_world None
           (Some 6%positive) 8).
  - refine (bool_decide_unpack _ _); vm_compute; exact I.
  - discriminate.
Defined.

(** Where the client that [GetClient] returns comes from: the cached one if
    there is one, else an object at an address not in use before the call;
    either way it is under its key afterwards, and the entries under other
    keys are as before. *)
Lemma GetClient_origin (w : World) (t : Z) :
  pool_ok w ->
  exists (l : positive) (w' : World),
    GetClient t w = Ret (Some l) w' /\
    pool_ok w' /\
    map_index (clients (self w')) t = Some l /\
    (forall t', t' <> t ->
       map_index (clients (self w')) t' = map_index (clients (self w)) t') /\
    (map_index (clients (self w)) t = None -> clientObjs w !! l = None) /\
    (forall l0, map_index (clients (self w)) t = Some l0 -> l = l0).
Proof.
  intros Hok.
  destruct (GetClient_post w t Hok)
    as (l & w' & Heq & Hok' & Hidx' & _ & _ & _ & _ & Hframe).
  exists l, w'. split_and!; try done.
  - intros Hnone.
    destruct (GetClient_cases w t Hok)
      as [(l0 & Hidx & _)|(g & x & tro & _ & _ & Heq' & _)]; [congruence|].
    rewrite Heq in Heq'. injection Heq' as -> _.
    apply fresh_client_unused.
  - intros l0 Hidx.
    rewrite (GetClient_hit w t l0 (proj1 Hok) Hidx) in Heq. congruence.
Qed.

(** C7. For distinct timeouts, [GetClient] returns distinct clients, and
    each key maps to its own, separately constructed client: after the two
    calls the map holds [l1] under [t1] and [l2] under [t2], the two
    addresses differ, each holds a client object with its own timeout, and
    each client is the one cached under its key before the call or, if there
    was none, an object at an address not in use before that call. *)
Theorem C7_distinct_timeouts_distinct_clients (w : World) (t1 t2 : Z) :
  pool_ok w ->
  t1 <> t2 ->
  exists (l1 l2 : positive) (w1 w2 : World) (cl1 cl2 : nethttp.Client),
    GetClient t1 w = Ret (Some l1) w1 /\
    GetClient t2 w1 = Ret (Some l2) w2 /\
    l1 <> l2 /\
    map_index (clients (self w2)) t1 = Some l1 /\
    map_index (clients (self w2)) t2 = Some l2 /\
    clientObjs w2 !! l1 = Some cl1 /\
    nethttp.Timeout cl1 = t1 /\
    clientObjs w2 !! l2 = Some cl2 /\
    nethttp.Timeout cl2 = t2 /\
    (map_index (clients (self w)) t1 = None -> clientObjs w !! l1 = None) /\
    (forall l, map_index (clients (self w)) t1 = Some l -> l1 = l) /\
    (map_index (clients (self w1)) t2 = None -> clientObjs w1 !! l2 = None) /\
    (forall l, map_index (clients (self w1)) t2 = Some l -> l2 = l).
Proof.
  intros Hok Hne.
  destruct (GetClient_origin w t1 Hok)
    as (l1 & w1 & Heq1 & Hok1 & Hidx1 & _ & Hnew1 & Hold1).
  destruct (GetClient_origin w1 t2 Hok1)
    as (l2 & w2 & Heq2 & Hok2 & Hidx2 & Hframe & Hnew2 & Hold2).
  rewrite <- (Hframe t1 Hne) in Hidx1.
  destruct (pool_ok_index_Some w2 t1 l1 Hok2 Hidx1) as (cl1 & Hcl1 & Ht1).
  destruct (pool_ok_index_Some w2 t2 l2 Hok2 Hidx2) as (cl2 & Hcl2 & Ht2).
  exists l1, l2, w1, w2, cl1, cl2. split_and!; try done.
  intros <-. congruence.
Qed.

Lemma C7_distinct_timeouts_distinct_clients_witness :
  exists (l1 l2 : positive) (w1 w2 : World) (cl1 cl2 : nethttp.Client),
    GetClient 5 sample_world = Ret (Some l1) w1 /\
    GetClient (-1) w1 = Ret (Some l2) w2 /\
    l1 <> l2 /\
    map_index (clients (self w2)) 5 = Some l1 /\
    map_index (clients (self w2)) (-1) = Some l2 /\
    clientObjs w2 !! l1 = Some cl1 /\
    nethttp.Timeout cl1 = 5 /\
    clientObjs w2 !! l2 = Some cl2 /\
    nethttp.Timeout cl2 = -1 /\
    (map_index (clients (self sample_world)) 5 = None ->
     clientObjs sample_world !! l1 = None) /\
    (forall l, map_index (clients (self sample_world)) 5 = Some l -> l1 = l) /\
    (map_index (clients (self w1)) (-1) = None -> clientObjs w1 !! l2 = None) /\
    (forall l, map_index (clients (self w1)) (-1) = Some l -> l2 = l).
Proof.
  apply (C7_distinct_timeouts_distinct_clients sample_world 5 (-1)).
  - refine (bool_decide_unpack _ _); vm_compute; exact I.
  - lia.
Defined.

(** ** Frame properties and totality *)

(** C8. [GetClient t] removes and replaces nothing: every entry of the map
    is still there with the same pointer, the entries under keys other than
    [t] are exactly those from before, and [transport] and [tlsConfig] are
    as they were.  Of all calls, only [SetTransport] and
    [SetDefaultTLSConfig] drop entries, and they drop all of them. *)
Theorem C8_GetClient_keeps_entries (w : World) (t : Z) :
  pool_ok w ->
  (exists (c : option positive) (w' : World)
          (g g' : gmap Z (option positive)),
      GetClient t w = Ret c w' /\
      clients (self w) = Some g /\
      clients (self w') = Some g' /\
      g ⊆ g' /\
      (forall t', t' <> t -> g' !! t' = g !! t') /\
      transport (self w') = transport (self w) /\
      tlsConfig (self w') = tlsConfig (self w)) /\
  (forall o : Op,
      exists (w' : World) (g g' : gmap Z (option positive)),
        call o w = Ret tt w' /\
        clients (self w) = Some g /\
        clients (self w') = Some g' /\
        if is_Set o then g' = ∅ else g ⊆ g').
Proof.
  intros Hok. split.
  - destruct (GetClient_cases w t Hok)
      as [(l & Hidx & ->)|(g & x & tro & Hg & Hnone & -> & _)].
    + destruct Hok as [_ Hall].
      destruct (clients (self w)) as [g|] eqn:Hg; [|done].
      exists (Some l), (looked_up w), g, g. by split_and!.
    + eexists _, _, g, _. split_and!; try done.
      * by apply insert_subseteq.
      * intros t' Hne. by rewrite lookup_insert_ne.
  - intros o. destruct (call_cache o w Hok) as (w' & g & g' & ? & _ & ?).
    by exists w', g, g'.
Qed.

Lemma C8_GetClient_keeps_entries_witness :
  (exists (c : option positive) (w' : World)
          (g g' : gmap Z (option positive)),
      GetClient 6 sample_world = Ret c w' /\
      clients (self sample_world) = Some g /\
      clients (self w') = Some g' /\
      g ⊆ g' /\
      (forall t', t' <> 6 -> g' !! t' = g !! t') /\
      transport (self w') = transport (self sample_world) /\
      tlsConfig (self w') = tlsConfig (self sample_world)) /\
  (forall o : Op,
      exists (w' : World) (g g' : gmap Z (option positive)),
        call o sample_world = Ret tt w' /\
        clients (self sample_world) = Some g /\
        clients (self w') = Some g' /\
        if is_Set o then g' = ∅ else g ⊆ g').
Proof.
  apply (C8_GetClient_keeps_entries sample_world 6).
  refine (bool_decide_unpack _ _); vm_compute; exact I.
Defined.

Lemma calls_ok (os : list Op) (w : World) :
  pool_ok w -> exists w', calls os w = Ret tt w' /\ pool_ok w'.
Proof.
  revert w. induction os as [|o os IH]; intros w Hok.
  - by exists w.
  - simpl. unfold bind.
    destruct (call_cache o w Hok) as (w' & g & g' & -> & Hok' & _).
    by apply IH.
Qed.

(** Every pool that [NewClientPool] made satisfies the invariant between
    calls, whatever was called on it. *)
Lemma reachable_pool_ok co tro (os : list Op) (w : World) :
  calls os (fresh_world co tro) = Ret tt w -> pool_ok w.
Proof.
  intros Heq.
  destruct (calls_ok os (fresh_world co tro) (pool_ok_fresh_world co tro))
    as (w' & Heq' & Hok).
  congruence.
Qed.

(** C9. Every operation is total.  On a pool obtained from [NewClientPool]
    and after any sequence of calls whatever (nil transports, nil TLS
    configurations, zero and negative timeouts among them) every call
    returns, none faults and none blocks; and then again [SetTransport] and
    [SetDefaultTLSConfig] return for every argument, and [GetClient] returns
    a non-nil client, cached under its key, for every timeout. *)
Theorem C9_operations_total (co : gmap positive nethttp.Client)
    (tro : gmap positive nethttp.Transport) (os : list Op) :
  exists w : World,
    calls os (fresh_world co tro) = Ret tt w /\
    mtx (self w) = sync.zero /\
    (forall x, exists w', SetTransport x w = Ret tt w') /\
    (forall c, exists w', SetDefaultTLSConfig c w = Ret tt w') /\
    (forall t, exists l w',
        GetClient t w = Ret (Some l) w' /\
        map_index (clients (self w')) t = Some l).
Proof.
  destruct (calls_ok os (fresh_world co tro) (pool_ok_fresh_world co tro))
    as (w & Heq & Hok).
  exists w. pose proof Hok as [Hm _]. split_and!; try done.
  - intros x. rewrite (SetTransport_eq w x Hm). by eexists.
  - intros c. rewrite (SetDefaultTLSConfig_eq w c Hm). by eexists.
  - intros t. destruct (GetClient_post w t Hok) as (l & w' & ? & _ & ? & _).
    by exists l, w'.
Qed.

(** C10. [SetTransport] leaves [tlsConfig] alone and [SetDefaultTLSConfig]
    leaves [transport] alone; neither touches the mutex's final state nor any
    client or transport object. *)
Theorem C10_Set_frame (w : World) :
  mtx (self w) = sync.zero ->
  (forall x, exists w',
      SetTransport x w = Ret tt w' /\
      tlsConfig (self w') = tlsConfig (self w) /\
      mtx (self w') = mtx (self w) /\
      clientObjs w' = clientObjs w /\
      transportObjs w' = transportObjs w) /\
  (forall c, exists w',
      SetDefaultTLSConfig c w = Ret tt w' /\
      transport (self w') = transport (self w) /\
      mtx (self w') = mtx (self w) /\
      clientObjs w' = clientObjs w /\
      transportObjs w' = transportObjs w).
Proof.
  intros Hm. split.
  - intros x. rewrite (SetTransport_eq w x Hm). eexists. by split_and!.
  - intros c. rewrite (SetDefaultTLSConfig_eq w c Hm). eexists. by split_and!.
Qed.

Lemma C10_Set_frame_witness :
  (forall x, exists w',
      SetTransport x sample_world = Ret tt w' /\
      tlsConfig (self w') = Some 4%positive /\
      mtx (self w') = sync.zero /\
      clientObjs w' = clientObjs sample_world /\
      transportObjs w' = transportObjs sample_world) /\
  (forall c, exists w',
      SetDefaultTLSConfig c sample_world = Ret tt w' /\
      transport (self w') = nethttp.rt_other 9 /\
      mtx (self w') = sync.zero /\
      clientObjs w' = clientObjs sample_world /\
      transportObjs w' = transportObjs sample_world).
Proof.
  apply (C10_Set_frame sample_world). vm_compute; reflexivity.
Defined.

(** * Further properties of the pool *)

(** ** What one call does, in full *)

Lemma guarded_from_app (h : Held) (es1 es2 : list Event) (h1 : Held) :
  guarded_from h es1 = Some h1 ->
  guarded_from h (es1 ++ es2) = guarded_from h1 es2.
Proof.
  revert h. induction es1 as [|e es1 IH]; intros h; simpl.
  - by intros [= ->].
  - destruct (guard_step h e) as [h'|]; [apply IH|done].
Qed.

Lemma map_index_Some_lookup (g : gmap Z (option positive)) (t : Z)
    (l : positive) :
  map_index (Some g) t = Some l -> g !! t = Some (Some l).
Proof.
  unfold map_index. destruct (g !! t) as [c|]; [|done]. simpl. by intros ->.
Qed.

Lemma call_effect (o : Op) (w : World) (g : gmap Z (option positive)) :
  pool_ok w ->
  clients (self w) = Some g ->
  exists (w' : World) (g' : gmap Z (option positive)) (tr : list Event),
    call o w = Ret tt w' /\
    pool_ok w' /\
    clients (self w') = Some g' /\
    events w' = events w ++ tr /\
    guarded_from HeldNone tr = Some HeldNone /\
    clientObjs w ⊆ clientObjs w' /\
    transportObjs w ⊆ transportObjs w' /\
    settings_of w' = settings_step (settings_of w) o /\
    dom g' = keys_step (dom g) o /\
    size (clientObjs w') = (size (clientObjs w) + misses (dom g) [o])%nat /\
    (transport (self w) <> nethttp.rt_nil ->
     transportObjs w' = transportObjs w).
Proof.
  intros Hok Hg. pose proof Hok as [Hm Hall].
  destruct o as [x|c|t]; simpl.
  - rewrite (SetTransport_eq w x Hm).
    eexists _, ∅, _. split; [done|]. split; [by apply pool_ok_cleared|].
    split_and!; first [done | apply dom_empty_L | simpl; lia].
  - rewrite (SetDefaultTLSConfig_eq w c Hm).
    eexists _, ∅, _. split; [done|]. split; [by apply pool_ok_cleared|].
    split_and!; first [done | apply dom_empty_L | simpl; lia].
  - unfold bind, ret.
    destruct (GetClient_cases w t Hok)
      as [(l & Hidx & ->)|(g0 & x & tro & Hg0 & Hnone & -> & Hx)].
    + rewrite Hg in Hidx. apply map_index_Some_lookup in Hidx.
      assert (Hin : t ∈ dom g) by (apply elem_of_dom; eauto).
      exists (looked_up w), g, [EvRLock; EvRUnlock].
      split_and!; try done.
      * simpl. apply set_eq. intros k. rewrite elem_of_union, elem_of_singleton.
        split; [by right|by intros [->|?]].
      * simpl. rewrite decide_True; [lia|done].
    + rewrite Hg in Hg0. injection Hg0 as <-.
      assert (Hnin : t ∉ dom g) by (by apply not_elem_of_dom).
      eexists _, _, _. split; [done|].
      split; [by apply pool_ok_stored|].
      split; [done|]. split; [done|]. split; [done|].
      split; [apply insert_subseteq, fresh_client_unused|].
      split.
      { simpl. destruct (transport (self w)); destruct Hx as [_ ->]; try done.
        apply insert_subseteq, fresh_transport_unused. }
      split; [done|]. split; [apply dom_insert_L|].
      split.
      { simpl. rewrite decide_False; [|done].
        rewrite map_size_insert_None; [lia|apply fresh_client_unused]. }
      intros Htr. simpl.
      destruct (transport (self w)); [done| |]; by destruct Hx as [_ ->].
Qed.

Lemma calls_effect (os : list Op) (w : World)
    (g : gmap Z (option positive)) :
  pool_ok w ->
  clients (self w) = Some g ->
  exists (w' : World) (g' : gmap Z (option positive)) (tr : list Event),
    calls os w = Ret tt w' /\
    pool_ok w' /\
    clients (self w') = Some g' /\
    events w' = events w ++ tr /\
    guarded_from HeldNone tr = Some HeldNone /\
    clientObjs w ⊆ clientObjs w' /\
    transportObjs w ⊆ transportObjs w' /\
    settings_of w' = fold_left settings_step os (settings_of w) /\
    dom g' = fold_left keys_step os (dom g) /\
    size (clientObjs w') = (size (clientObjs w) + misses (dom g) os)%nat.
Proof.
  revert w g. induction os as [|o os IH]; intros w g Hok Hg.
  - exists w, g, [].
    split_and!; first [done | by rewrite app_nil_r | simpl; lia].
  - destruct (call_effect o w g Hok Hg)
      as (w1 & g1 & tr1 & Heq1 & Hok1 & Hg1 & Hev1 & Hgd1 & Hco1 & Htro1
          & Hset1 & Hdom1 & Hsz1 & _).
    destruct (IH w1 g1 Hok1 Hg1)
      as (w' & g' & tr & Heq & Hok' & Hg' & Hev & Hgd & Hco & Htro
          & Hset & Hdom & Hsz).
    exists w', g', (tr1 ++ tr). split_and!; try done.
    + simpl. unfold bind. by rewrite Heq1.
    + by rewrite Hev, Hev1, app_assoc.
    + by rewrite (guarded_from_app _ _ _ _ Hgd1).
    + by transitivity (clientObjs w1).
    + by transitivity (transportObjs w1).
    + by rewrite Hset, Hset1.
    + by rewrite Hdom, Hdom1.
    + rewrite Hsz, Hsz1, Hdom1. cbn [misses]. lia.
Qed.

Lemma pool_ok_clients (w : World) :
  pool_ok w -> exists g, clients (self w) = Some g.
Proof.
  intros [_ Hall]. destruct (clients (self w)) as [g|]; [by exists g|done].
Qed.

(** ** The zero value of [pool] *)

(** X1. On a pool whose map is the nil map (the zero value [pool{}], which
    [NewClientPool] never returns) [GetClient] faults for every timeout, on
    the assignment to the map; [SetTransport] and [SetDefaultTLSConfig]
    return, and leave a pool on which every later call works. *)
Theorem X1_nil_map_pool (w : World) :
  mtx (self w) = sync.zero ->
  clients (self w) = None ->
  (forall t, GetClient t w = Panic NilMapWrite) /\
  (forall x, exists w', SetTransport x w = Ret tt w' /\ pool_ok w') /\
  (forall c, exists w', SetDefaultTLSConfig c w = Ret tt w' /\ pool_ok w').
Proof.
  intros Hm Hnil. split_and!.
  - intros t. by apply GetClient_nil_map.
  - intros x. rewrite (SetTransport_eq w x Hm). eexists. split; [done|].
    by apply pool_ok_cleared.
  - intros c. rewrite (SetDefaultTLSConfig_eq w c Hm). eexists. split; [done|].
    by apply pool_ok_cleared.
Qed.

Lemma X1_nil_map_pool_witness :
  (forall t, GetClient t (zero_world ∅ ∅) = Panic NilMapWrite) /\
  (forall x, exists w',
      SetTransport x (zero_world ∅ ∅) = Ret tt w' /\ pool_ok w') /\
  (forall c, exists w',
      SetDefaultTLSConfig c (zero_world ∅ ∅) = Ret tt w' /\ pool_ok w').
Proof.
  apply (X1_nil_map_pool (zero_world ∅ ∅)); vm_compute; reflexivity.
Defined.

(** ** The mutex *)

(** X2. The fast path of [GetClient] takes the read lock only: with any
    number of read locks held elsewhere, the write lock not held and no
    writer waiting for it, a call for a cached timeout returns the cached
    client without waiting, creates nothing, writes no field of the pool and
    leaves the number of read locks as it found it.  (With a writer waiting
    the call waits behind it: see X3.) *)
Theorem X2_fast_path_among_readers (w : World) (n : nat) (t : Z)
    (l : positive) :
  mtx (self w) = {| sync.writer := false; sync.readers := n;
                    sync.pending := false |} ->
  map_index (clients (self w)) t = Some l ->
  GetClient t w = Ret (Some l) (looked_up w).
Proof.
  open_world w. intros -> Hidx. go_unfold. simpl. rewrite Hidx. simpl.
  unfold looked_up. simpl. by rewrite <- !app_assoc.
Qed.

Lemma X2_fast_path_among_readers_witness :
  GetClient 5
    (with_mtx sample_world
       {| sync.writer := false; sync.readers := 3; sync.pending := false |})
  = Ret (Some 1%positive)
      (looked_up
         (with_mtx sample_world
            {| sync.writer := false; sync.readers := 3;
               sync.pending := false |})).
Proof.
  apply (X2_fast_path_among_readers
           (with_mtx sample_world
              {| sync.writer := false; sync.readers := 3;
                 sync.pending := false |}) 3 5 1);
    vm_compute; reflexivity.
Defined.

(** X3. While the mutex is held, in either mode, or a writer waits for it,
    nothing changes the pool: [SetTransport], [SetDefaultTLSConfig] and the
    slow path of [GetClient] wait; and while it is held for writing, or a
    writer waits for it, every [GetClient] waits, the fast path too. *)
Theorem X3_held_mutex_excludes_writers (w : World) :
  mtx (self w) <> sync.zero ->
  (forall x, SetTransport x w = Blocked) /\
  (forall c, SetDefaultTLSConfig c w = Blocked) /\
  (forall t, map_index (clients (self w)) t = None ->
             GetClient t w = Blocked) /\
  (sync.writer (mtx (self w)) = true -> forall t, GetClient t w = Blocked) /\
  (sync.pending (mtx (self w)) = true -> forall t, GetClient t w = Blocked).
Proof.
  open_world w. destruct m as [[|] n [|]]; intros Hne.
  - by split_and!.
  - by split_and!.
  - split_and!; try done; go_unfold; simpl; by rewrite !orb_true_r.
  - destruct n as [|n]; [done|].
    split_and!; try done.
    intros t Hidx. go_unfold. simpl. by rewrite Hidx.
Qed.

Lemma X3_held_mutex_excludes_writers_witness :
  (forall x,
      SetTransport x
        (with_mtx sample_world
           {| sync.writer := false; sync.readers := 2;
              sync.pending := false |})
      = Blocked) /\
  GetClient 6
    (with_mtx sample_world
       {| sync.writer := false; sync.readers := 2; sync.pending := false |})
  = Blocked /\
  GetClient 5
    (with_mtx sample_world
       {| sync.writer := false; sync.readers := 2; sync.pending := true |})
  = Blocked.
Proof.
  pose proof (X3_held_mutex_excludes_writers
                (with_mtx sample_world
                   {| sync.writer := false; sync.readers := 2;
                      sync.pending := false |})) as H.
  destruct H as (H1 & _ & H3 & _); [vm_compute; discriminate|].
  split; [exact H1|]. split; [apply H3; vm_compute; reflexivity|].
  pose proof (X3_held_mutex_excludes_writers
                (with_mtx sample_world
                   {| sync.writer := false; sync.readers := 2;
                      sync.pending := true |})) as H.
  destruct H as (_ & _ & _ & _ & H5); [vm_compute; discriminate|].
  apply H5. vm_compute; reflexivity.
Defined.

(** X4. Every field of the pool is written under the write lock, and every
    lock taken is released: the trace of any sequence of calls on a new pool
    passes [guard_step] event by event and ends with no lock held. *)
Theorem X4_writes_under_write_lock (co : gmap positive nethttp.Client)
    (tro : gmap positive nethttp.Transport) (os : list Op) :
  exists w : World,
    calls os (fresh_world co tro) = Ret tt w /\
    guarded_from HeldNone (events w) = Some HeldNone.
Proof.
  destruct (calls_effect os (fresh_world co tro) ∅
              (pool_ok_fresh_world co tro) eq_refl)
    as (w & g & tr & Heq & _ & _ & Hev & Hgd & _).
  exists w. split; [done|]. by rewrite Hev.
Qed.

(** ** Objects, settings and keys along a sequence of calls *)

(** X5. A client the pool has handed out is never touched again: whatever
    is called afterwards, [SetTransport] and [SetDefaultTLSConfig] included,
    the client object keeps its transport and its timeout, and every
    transport object stays as it was. *)
Theorem X5_returned_client_never_modified (w : World) (t : Z)
    (os : list Op) :
  pool_ok w ->
  exists (l : positive) (cl : nethttp.Client) (w1 w2 : World),
    GetClient t w = Ret (Some l) w1 /\
    clientObjs w1 !! l = Some cl /\
    calls os w1 = Ret tt w2 /\
    clientObjs w2 !! l = Some cl /\
    transportObjs w1 ⊆ transportObjs w2.
Proof.
  intros Hok.
  destruct (GetClient_post w t Hok) as (l & w1 & Heq & Hok1 & Hidx & _).
  destruct (pool_ok_index_Some w1 t l Hok1 Hidx) as (cl & Hl & _).
  destruct (pool_ok_clients w1 Hok1) as (g1 & Hg1).
  destruct (calls_effect os w1 g1 Hok1 Hg1)
    as (w2 & g2 & tr & Heq2 & _ & _ & _ & _ & Hco & Htro & _).
  exists l, cl, w1, w2. split_and!; try done.
  by eapply lookup_weaken.
Qed.

Lemma X5_returned_client_never_modified_witness :
  exists (l : positive) (cl : nethttp.Client) (w1 w2 : World),
    GetClient 5 sample_world = Ret (Some l) w1 /\
    clientObjs w1 !! l = Some cl /\
    calls [CallSetTransport nethttp.rt_nil; CallGetClient 5;
           CallSetDefaultTLSConfig None] w1 = Ret tt w2 /\
    clientObjs w2 !! l = Some cl /\
    transportObjs w1 ⊆ transportObjs w2.
Proof.
  apply (X5_returned_client_never_modified sample_world 5
           [CallSetTransport nethttp.rt_nil; CallGetClient 5;
            CallSetDefaultTLSConfig None]).
  refine (bool_decide_unpack _ _); vm_compute; exact I.
Defined.

(** X6. The settings in force after a sequence of calls are those of the
    last [SetTransport] and of the last [SetDefaultTLSConfig] in it (those
    in force before, where the sequence has none); [GetClient] changes
    neither, and neither setter changes the other's setting. *)
Theorem X6_settings_last_writer_wins (w : World) (os : list Op) :
  pool_ok w ->
  exists w' : World,
    calls os w = Ret tt w' /\
    (transport (self w'), tlsConfig (self w'))
    = fold_left settings_step os (transport (self w), tlsConfig (self w)).
Proof.
  intros Hok. destruct (pool_ok_clients w Hok) as (g & Hg).
  destruct (calls_effect os w g Hok Hg)
    as (w' & g' & tr & Heq & _ & _ & _ & _ & _ & _ & Hset & _).
  by exists w'.
Qed.

Lemma X6_settings_last_writer_wins_witness :
  exists w' : World,
    calls [CallSetDefaultTLSConfig (Some 8%positive); CallGetClient 2;
           CallSetTransport nethttp.rt_nil; CallGetClient 2] sample_world
    = Ret tt w' /\
    (transport (self w'), tlsConfig (self w'))
    = (nethttp.rt_nil, Some 8%positive).
Proof.
  apply (X6_settings_last_writer_wins sample_world
           [CallSetDefaultTLSConfig (Some 8%positive); CallGetClient 2;
            CallSetTransport nethttp.rt_nil; CallGetClient 2]).
  refine (bool_decide_unpack _ _); vm_compute; exact I.
Defined.

(** X7. The keys of the cache after a sequence of calls are exactly the
    timeouts asked for since the last change of settings: each [GetClient t]
    adds [t], each [SetTransport] and [SetDefaultTLSConfig] empties the
    cache, and nothing else adds or removes a key. *)
Theorem X7_cached_keys (w : World) (g : gmap Z (option positive))
    (os : list Op) :
  pool_ok w ->
  clients (self w) = Some g ->
  exists (w' : World) (g' : gmap Z (option positive)),
    calls os w = Ret tt w' /\
    clients (self w') = Some g' /\
    dom g' = fold_left keys_step os (dom g).
Proof.
  intros Hok Hg.
  destruct (calls_effect os w g Hok Hg)
    as (w' & g' & tr & Heq & _ & Hg' & _ & _ & _ & _ & _ & Hdom & _).
  by exists w', g'.
Qed.

Lemma X7_cached_keys_witness :
  exists (w' : World) (g' : gmap Z (option positive)),
    calls [CallGetClient 7; CallSetTransport nethttp.rt_nil;
           CallGetClient 0; CallGetClient (-4); CallGetClient 0]
      sample_world = Ret tt w' /\
    clients (self w') = Some g' /\
    dom g' = fold_left keys_step
               [CallGetClient 7; CallSetTransport nethttp.rt_nil;
                CallGetClient 0; CallGetClient (-4); CallGetClient 0]
               (dom ({[ 5 := Some 1%positive ]} : gmap Z (option positive))).
Proof.
  apply (X7_cached_keys sample_world {[ 5 := Some 1%positive ]}).
  - refine (bool_decide_unpack _ _); vm_compute; exact I.
  - reflexivity.
Defined.

(** X8. A client is created once per timeout and settings: along any
    sequence of calls the number of client objects grows by the number of
    [GetClient] calls whose timeout was not asked for since the last change
    of settings, and by nothing else. *)
Theorem X8_one_client_per_new_key (w : World)
    (g : gmap Z (option positive)) (os : list Op) :
  pool_ok w ->
  clients (self w) = Some g ->
  exists w' : World,
    calls os w = Ret tt w' /\
    size (clientObjs w') = (size (clientObjs w) + misses (dom g) os)%nat.
Proof.
  intros Hok Hg.
  destruct (calls_effect os w g Hok Hg)
    as (w' & g' & tr & Heq & _ & _ & _ & _ & _ & _ & _ & _ & Hsz).
  by exists w'.
Qed.

Lemma X8_one_client_per_new_key_witness :
  exists w' : World,
    calls [CallGetClient 5; CallGetClient 7; CallGetClient 7;
           CallSetDefaultTLSConfig None; CallGetClient 5] sample_world
    = Ret tt w' /\
    size (clientObjs w') = 4%nat.
Proof.
  destruct (X8_one_client_per_new_key sample_world
              {[ 5 := Some 1%positive ]}
              [CallGetClient 5; CallGetClient 7; CallGetClient 7;
               CallSetDefaultTLSConfig None; CallGetClient 5])
    as (w' & Heq & Hsz).
  - refine (bool_decide_unpack _ _); vm_compute; exact I.
  - reflexivity.
  - exists w'. split; [exact Heq|]. rewrite Hsz. vm_compute. reflexivity.
Defined.

(** ** Cached clients and the settings in force *)

Lemma client_current_mono (w w' : World) (cl : nethttp.Client) :
  transport (self w') = transport (self w) ->
  tlsConfig (self w') = tlsConfig (self w) ->
  transportObjs w ⊆ transportObjs w' ->
  client_current w cl -> client_current w' cl.
Proof.
  unfold client_current. intros -> -> Hsub.
  destruct (transport (self w)); [|done|done].
  destruct (nethttp.Transport_ cl) as [|[lt|]|]; try done.
  intros Hlt. by eapply lookup_weaken.
Qed.

Lemma cache_current_cleared (w : World) :
  clients (self w) = Some ∅ -> cache_current w.
Proof. intros Hc k l. by rewrite Hc. Qed.

Lemma call_current (o : Op) (w : World) :
  pool_ok w -> cache_current w ->
  exists w', call o w = Ret tt w' /\ pool_ok w' /\ cache_current w'.
Proof.
  intros Hok Hcur. pose proof Hok as [Hm _].
  destruct o as [x|c|t]; simpl.
  - rewrite (SetTransport_eq w x Hm). eexists. split; [done|].
    split; [by apply pool_ok_cleared|by apply cache_current_cleared].
  - rewrite (SetDefaultTLSConfig_eq w c Hm). eexists. split; [done|].
    split; [by apply pool_ok_cleared|by apply cache_current_cleared].
  - unfold bind, ret.
    destruct (GetClient_cases w t Hok)
      as [(l & Hidx & ->)|(g & x & tro & Hg & Hnone & -> & Hx)].
    + exists (looked_up w). by split_and!.
    + eexists. split; [done|]. split; [by apply pool_ok_stored|].
      assert (Htro : transportObjs w ⊆ tro).
      { destruct (transport (self w)); destruct Hx as [_ ->]; try done.
        apply insert_subseteq, fresh_transport_unused. }
      intros k l. simpl. destruct (decide (t = k)) as [<-|Hne].
      * rewrite lookup_insert_eq. simpl. intros [= <-].
        rewrite lookup_insert_eq. eexists. split; [done|].
        unfold client_current. simpl.
        destruct (transport (self w)); destruct Hx as [-> ->]; try done.
        by rewrite lookup_insert_eq.
      * rewrite lookup_insert_ne; [|done]. intros Hk.
        destruct (Hcur k l) as (cl & Hl & Hcl); [by rewrite Hg|].
        exists cl. split.
        { eapply lookup_weaken; [exact Hl|].
          apply insert_subseteq, fresh_client_unused. }
        by eapply client_current_mono; [| | |exact Hcl].
Qed.

(** X9. No cached client is built with stale settings.  After any sequence
    of calls on a new pool, every client in the cache is built around the
    transport now set on the pool, or, when none is set, around a transport
    object that carries the TLS configuration now set on the pool (with the
    environment proxy, the 30s dialer and the 10s handshake limit). *)
Theorem X9_cache_matches_settings (co : gmap positive nethttp.Client)
    (tro : gmap positive nethttp.Transport) (os : list Op) :
  exists w : World,
    calls os (fresh_world co tro) = Ret tt w /\
    cache_current w.
Proof.
  assert (Hgen : forall os w, pool_ok w -> cache_current w ->
            exists w', calls os w = Ret tt w' /\ cache_current w').
  { clear os. intros os. induction os as [|o os IH]; intros w Hok Hcur.
    - by exists w.
    - destruct (call_current o w Hok Hcur) as (w1 & Heq1 & Hok1 & Hcur1).
      destruct (IH w1 Hok1 Hcur1) as (w' & Heq & Hcur').
      exists w'. split; [|done]. simpl. unfold bind. by rewrite Heq1. }
  apply Hgen; [apply pool_ok_fresh_world|].
  by apply cache_current_cleared.
Qed.

(** X10. Default transports are not shared between clients: on a pool with
    no transport set, the clients built for two timeouts that were not
    cached get two different transport objects, each made for its client. *)
Theorem X10_default_transport_per_client (w : World) (t1 t2 : Z) :
  pool_ok w ->
  transport (self w) = nethttp.rt_nil ->
  map_index (clients (self w)) t1 = None ->
  map_index (clients (self w)) t2 = None ->
  t1 <> t2 ->
  exists (l1 l2 lt1 lt2 : positive) (w1 w2 : World),
    GetClient t1 w = Ret (Some l1) w1 /\
    GetClient t2 w1 = Ret (Some l2) w2 /\
    clientObjs w2 !! l1
    = Some {| nethttp.Transport_ := nethttp.rt_Transport (Some lt1);
              nethttp.Timeout := t1 |} /\
    clientObjs w2 !! l2
    = Some {| nethttp.Transport_ := nethttp.rt_Transport (Some lt2);
              nethttp.Timeout := t2 |} /\
    transportObjs w !! lt1 = None /\
    transportObjs w1 !! lt2 = None /\
    lt1 <> lt2.
Proof.
  intros Hok Htr Hn1 Hn2 Hne. pose proof Hok as [Hm _].
  destruct (pool_ok_clients w Hok) as (g & Hg). rewrite Hg in Hn1, Hn2.
  pose proof (GetClient_miss_default w t1 g Hm Hg Hn1 Htr) as Heq1.
  simpl in Heq1.
  set (lt1 := fresh (dom (transportObjs w))) in *.
  set (w1 := stored w t1 g _ _) in Heq1.
  assert (Hok1 : pool_ok w1) by (by apply pool_ok_stored).
  assert (Hn2' : map_index (Some (<[t1 := Some (fresh (dom (clientObjs w)))]> g))
                   t2 = None).
  { unfold map_index in *. by rewrite lookup_insert_ne. }
  pose proof (GetClient_miss_default w1 t2 _ (proj1 Hok1) eq_refl Hn2' Htr)
    as Heq2.
  simpl in Heq2.
  eexists _, _, lt1, _, w1, _. split; [exact Heq1|]. split; [exact Heq2|].
  assert (Hl1 : clientObjs w1 !! fresh (dom (clientObjs w))
                = Some {| nethttp.Transport_ := nethttp.rt_Transport (Some lt1);
                          nethttp.Timeout := t1 |})
    by (simpl; by rewrite lookup_insert_eq).
  split_and!.
  - simpl. eapply lookup_weaken; [exact Hl1|].
    apply insert_subseteq, fresh_client_unused.
  - simpl. by rewrite lookup_insert_eq.
  - apply fresh_transport_unused.
  - apply fresh_transport_unused.
  - intros E.
    pose proof (fresh_transport_unused (<[lt1 := built_transport (tlsConfig (self w))]>
                                          (transportObjs w))) as Hf.
    rewrite <- E in Hf. by rewrite lookup_insert_eq in Hf.
Qed.

Lemma X10_default_transport_per_client_witness :
  exists (l1 l2 lt1 lt2 : positive) (w1 w2 : World),
    GetClient 1 (fresh_world ∅ ∅) = Ret (Some l1) w1 /\
    GetClient 2 w1 = Ret (Some l2) w2 /\
    clientObjs w2 !! l1
    = Some {| nethttp.Transport_ := nethttp.rt_Transport (Some lt1);
              nethttp.Timeout := 1 |} /\
    clientObjs w2 !! l2
    = Some {| nethttp.Transport_ := nethttp.rt_Transport (Some lt2);
              nethttp.Timeout := 2 |} /\
    transportObjs (fresh_world ∅ ∅) !! lt1 = None /\
    transportObjs w1 !! lt2 = None /\
    lt1 <> lt2.
Proof.
  apply (X10_default_transport_per_client (fresh_world ∅ ∅) 1 2).
  - refine (bool_decide_unpack _ _); vm_compute; exact I.
  - reflexivity.
  - vm_compute; reflexivity.
  - vm_compute; reflexivity.
  - lia.
Defined.

(** X11. While a transport is set on the pool, the pool builds none: along
    any sequence of calls that never sets the transport to nil, started with
    a transport set, no transport object is created. *)
Theorem X11_no_transport_built_with_custom (w : World) (os : list Op) :
  pool_ok w ->
  transport (self w) <> nethttp.rt_nil ->
  forallb (fun o => negb (sets_nil_transport o)) os = true ->
  exists w' : World,
    calls os w = Ret tt w' /\
    transportObjs w' = transportObjs w /\
    transport (self w') <> nethttp.rt_nil.
Proof.
  revert w. induction os as [|o os IH]; intros w Hok Htr Hos.
  - by exists w.
  - simpl in Hos. apply andb_true_iff in Hos as [Ho Hos].
    destruct (pool_ok_clients w Hok) as (g & Hg).
    destruct (call_effect o w g Hok Hg)
      as (w1 & g1 & tr1 & Heq1 & Hok1 & _ & _ & _ & _ & _ & Hset & _ & _
          & Hsame).
    assert (Htr1 : transport (self w1) <> nethttp.rt_nil).
    { unfold settings_of in Hset.
      destruct o as [x|c|t]; simpl in Hset; injection Hset as -> _; try done.
      by destruct x. }
    destruct (IH w1 Hok1 Htr1 Hos) as (w' & Heq & Hsame' & Htr').
    exists w'. split_and!; try done.
    + simpl. unfold bind. by rewrite Heq1.
    + by rewrite Hsame', Hsame.
Qed.

Lemma X11_no_transport_built_with_custom_witness :
  exists w' : World,
    calls [CallGetClient 1; CallSetDefaultTLSConfig None; CallGetClient 1;
           CallSetTransport (nethttp.rt_Transport None); CallGetClient 2]
      sample_world = Ret tt w' /\
    transportObjs w' = transportObjs sample_world /\
    transport (self w') <> nethttp.rt_nil.
Proof.
  apply (X11_no_transport_built_with_custom sample_world
           [CallGetClient 1; CallSetDefaultTLSConfig None; CallGetClient 1;
            CallSetTransport (nethttp.rt_Transport None); CallGetClient 2]).
  - refine (bool_decide_unpack _ _); vm_compute; exact I.
  - discriminate.
  - vm_compute; reflexivity.
Defined.
